(** * img2panorama: a shallow embedding of [src/main.py]

    The script scans a directory, loads the images with [cv2.imread], hands
    them to [cv2.Stitcher.stitch] and writes the result with [cv2.imwrite].
    The OpenCV calls and the operating system are the environment of the
    program: they are the fields of the record [Env] below.  The program state
    is the file system together with the trace of observable events (file
    reads, the engine call, file writes and log records).  Python exceptions
    that escape a function are the error side of the monad [M]. *)

From Stdlib Require Import List Bool ZArith Ascii String Lia.
Import ListNotations.
Open Scope Z_scope.

(** ** Data model *)

(** A Python [str]; all names in this program are ASCII. *)
Definition pystr := list ascii.

(** A Python string literal. *)
Definition pys (s : string) : pystr := list_ascii_of_string s.

(** A [numpy.ndarray] image as OpenCV produces it: rows, columns, channels
    and the pixel bytes in row-major order. *)
Record image := mkImage {
  img_rows : Z;
  img_cols : Z;
  img_chans : Z;
  img_data : list Z
}.

(** The content of a file on disk. *)
Definition bytes := list Z.

(** [cv2.Stitcher_OK]; the failure statuses are
    [ERR_NEED_MORE_IMGS = 1], [ERR_HOMOGRAPHY_EST_FAIL = 2] and
    [ERR_CAMERA_PARAMS_ADJUST_FAIL = 3]. *)
Definition Stitcher_OK : Z := 0.
Definition ERR_NEED_MORE_IMGS : Z := 1.
Definition ERR_HOMOGRAPHY_EST_FAIL : Z := 2.
Definition ERR_CAMERA_PARAMS_ADJUST_FAIL : Z := 3.

(** Logging levels used by the script. *)
Inductive level := INFO | WARNING | ERROR.

(** The log records the script emits, one constructor per f-string. *)
Inductive msg :=
  | MsgStitching (n : Z)            (** "Stitching {n} images into a panorama." *)
  | MsgLoadFailed                   (** "One or more images could not be loaded." *)
  | MsgStitchFailed (status : Z)    (** "Failed to stitch images, error code: {status}" *)
  | MsgCreated                      (** "Panorama successfully created." *)
  | MsgSaved (file_name : pystr)    (** "Panorama saved as {file_name}" *)
  | MsgNoImageFiles                 (** "No image files found in the directory." *)
  | MsgNoImagesExit                 (** "No images found to process. Exiting program." *)
  | MsgPanoramaFailed.              (** "Failed to create a panorama." *)

(** Observable events of one run. *)
Inductive event :=
  | EvRead (path : pystr)           (** [cv2.imread path] *)
  | EvStitch (images : list image)  (** [stitcher.stitch images] *)
  | EvWrite (file_name : pystr)     (** [cv2.imwrite file_name _] *)
  | EvLog (lvl : level) (m : msg).

(** Exceptions that can escape: [os.listdir] raises [OSError] on a missing
    or unreadable directory; [stitcher.stitch] raises [cv2.error] when one of
    OpenCV's internal assertions fails. *)
Inductive exn := OSError (path : pystr) | CvError.

(** How OpenCV's writer ends: the file was written; it could not be opened
    for writing (permissions, missing directory, invalid path), so nothing
    was created; or it was opened ['wb'] (created or truncated) and writing
    stopped early (disk full), leaving [partial] on disk. *)
Inductive write_result :=
  | Written
  | NotCreated
  | Truncated (partial : bytes).

(** The environment: the operating system and the OpenCV library.
    - [listdir d] is [os.listdir d], [None] when it raises;
    - [resolve p] is the file a path names (relative to the working
      directory, after [.] components, links and the like), so that two
      spellings of one file, such as [./panorama_output.jpg] and
      [panorama_output.jpg], name the same entry of the file system;
    - [decode b] is OpenCV's decoder on the content of a file, [None] when
      the data is corrupt or of an unsupported format;
    - [encode name img] is the encoder [cv2.imwrite] selects from the
      extension of [name];
    - [write_outcome name data] is how writing [data] to [name] ends;
    - [stitch_engine imgs] is [Some (status, pano)] when
      [cv2.Stitcher_create().stitch(imgs)] returns the pair [(status, pano)]
      ([pano] is [None] when OpenCV returns no array) and [None] when it
      raises [cv2.error]. *)
Record Env := mkEnv {
  listdir : pystr -> option (list pystr);
  resolve : pystr -> pystr;
  decode : bytes -> option image;
  encode : pystr -> image -> bytes;
  write_outcome : pystr -> bytes -> write_result;
  stitch_engine : list image -> option (Z * option image)
}.

(** The file system: an association list from resolved files to contents,
    most recent binding first. *)
Definition fsys := list (pystr * bytes).

Fixpoint fs_lookup (fs : fsys) (name : pystr) : option bytes :=
  match fs with
  | [] => None
  | (n, b) :: fs' => if list_eq_dec ascii_dec n name then Some b else fs_lookup fs' name
  end.

Definition fs_write (fs : fsys) (name : pystr) (b : bytes) : fsys := (name, b) :: fs.

(** The file system after a write that ended in [r]. *)
Definition stored (fs : fsys) (key : pystr) (r : write_result) (data : bytes) : fsys :=
  match r with
  | Written => fs_write fs key data
  | NotCreated => fs
  | Truncated partial => fs_write fs key partial
  end.

Record St := mkSt {
  st_fs : fsys;
  st_trace : list event
}.

(** ** A state and exception monad *)

Definition M (A : Type) := St -> (exn + A) * St.

Definition ret {A} (a : A) : M A := fun s => (inr a, s).

Definition bind {A B} (m : M A) (k : A -> M B) : M B :=
  fun s => match m s with
           | (inl e, s') => (inl e, s')
           | (inr a, s') => k a s'
           end.

Notation "x <- m ;; k" := (bind m (fun x => k))
  (at level 61, m at next level, right associativity).
Notation "m ;;; k" := (bind m (fun _ => k))
  (at level 61, right associativity).

Definition raise {A} (e : exn) : M A := fun s => (inl e, s).

Definition emit (e : event) : M unit :=
  fun s => (inr tt, mkSt (st_fs s) (st_trace s ++ [e])).

Definition log (l : level) (m : msg) : M unit := emit (EvLog l m).

Definition get_fs : M fsys := fun s => (inr (st_fs s), s).

Definition put_fs (fs : fsys) : M unit :=
  fun s => (inr tt, mkSt fs (st_trace s)).

Fixpoint mapM {A B} (f : A -> M B) (l : list A) : M (list B) :=
  match l with
  | [] => ret []
  | x :: l' => y <- f x ;; ys <- mapM f l' ;; ret (y :: ys)
  end.

(** ** The library calls the script makes *)

Section Library.
Variable env : Env.

(** The content of the file [path] names. *)
Definition file_content (fs : fsys) (path : pystr) : option bytes :=
  fs_lookup fs (resolve env path).

(** The image held by file [path] of [fs]: [None] when the file is missing
    or its content does not decode. *)
Definition file_image (fs : fsys) (path : pystr) : option image :=
  match file_content fs path with
  | Some b => decode env b
  | None => None
  end.

(** [cv2.imread(path)]: [None] when the file is missing or does not decode. *)
Definition imread (path : pystr) : M (option image) :=
  emit (EvRead path) ;;;
  fs <- get_fs ;;
  ret (file_image fs path).

(** [cv2.imwrite(file_name, image)]: [True] when the file was written,
    [False] otherwise. *)
Definition imwrite (file_name : pystr) (img : image) : M bool :=
  emit (EvWrite file_name) ;;;
  fs <- get_fs ;;
  let data := encode env file_name img in
  let r := write_outcome env file_name data in
  put_fs (stored fs (resolve env file_name) r data) ;;;
  ret (match r with Written => true | _ => false end).

(** [stitcher.stitch(images)]. *)
Definition stitch (images : list image) : M (Z * option image) :=
  emit (EvStitch images) ;;;
  match stitch_engine env images with
  | Some sp => ret sp
  | None => raise CvError
  end.

(** [os.listdir(directory)]. *)
Definition os_listdir (directory : pystr) : M (list pystr) :=
  match listdir env directory with
  | Some l => ret l
  | None => raise (OSError directory)
  end.

End Library.

(** Python's [str.lower] on ASCII characters. *)
Definition lower_char (c : ascii) : ascii :=
  let n := nat_of_ascii c in
  if (65 <=? n)%nat && (n <=? 90)%nat then ascii_of_nat (n + 32) else c.

Definition lower (s : pystr) : pystr := map lower_char s.

(** [s.endswith(suffix)], as CPython's tail match: the suffix fits and the
    last [len(suffix)] characters are equal to it. *)
Definition endswith1 (s suffix : pystr) : bool :=
  (List.length suffix <=? List.length s)%nat &&
  (if list_eq_dec ascii_dec (skipn (List.length s - List.length suffix)%nat s) suffix
   then true else false).

(** [s.endswith(suffixes)] for a tuple of suffixes. *)
Definition endswith (s : pystr) (suffixes : list pystr) : bool :=
  existsb (endswith1 s) suffixes.

(** [posixpath.join(a, b)]. *)
Definition path_join (a b : pystr) : pystr :=
  match b with
  | "/"%char :: _ => b
  | _ =>
      match rev a with
      | [] => b
      | "/"%char :: _ => a ++ b
      | _ => a ++ ["/"%char] ++ b
      end
  end.

Definition is_none {A} (o : option A) : bool :=
  match o with None => true | Some _ => false end.

(** The list [images] after the [any(img is None ...)] test: every element
    is an array. *)
Fixpoint arrays (l : list (option image)) : list image :=
  match l with
  | [] => []
  | Some i :: l' => i :: arrays l'
  | None :: l' => arrays l'
  end.

(** ** The script *)

Section Program.
Variable env : Env.

(** [create_panorama(image_files)] *)
Definition create_panorama (image_files : list pystr) : M (option image) :=
  log INFO (MsgStitching (Z.of_nat (List.length image_files))) ;;;
  images <- mapM (imread env) image_files ;;
  if existsb is_none images then
    log ERROR MsgLoadFailed ;;; ret None
  else
    sp <- stitch env (arrays images) ;;
    let '(status, panorama) := sp in
    if negb (status =? Stitcher_OK) then
      log ERROR (MsgStitchFailed status) ;;; ret None
    else
      log INFO MsgCreated ;;; ret panorama.

(** [save_image(image, file_name)]: the result of [cv2.imwrite] is dropped. *)
Definition save_image (img : image) (file_name : pystr) : M unit :=
  _ <- imwrite env file_name img ;;
  log INFO (MsgSaved file_name).

Definition supported_extensions : list pystr := [pys ".jpg"; pys ".jpeg"; pys ".png"].

(** The condition of the comprehension in [scan_images]:
    [f.lower().endswith(supported_extensions)]. *)
Definition is_image_file (f : pystr) : bool := endswith (lower f) supported_extensions.

(** [scan_images(directory)] *)
Definition scan_images (directory : pystr) : M (list pystr) :=
  entries <- os_listdir env directory ;;
  let image_files :=
    map (path_join directory) (filter is_image_file entries) in
  (if (List.length image_files =? 0)%nat then log WARNING MsgNoImageFiles else ret tt) ;;;
  ret image_files.

Definition output_name : pystr := pys "panorama_output.jpg".

(** [main()], with [args.input_dir] already parsed. *)
Definition main (input_dir : pystr) : M unit :=
  image_files <- scan_images input_dir ;;
  if (List.length image_files =? 0)%nat then
    log ERROR MsgNoImagesExit ;;; ret tt
  else
    panorama <- create_panorama image_files ;;
    match panorama with
    | Some p => save_image p output_name
    | None => log ERROR MsgPanoramaFailed
    end.

(** A process running the script on [input_dir] over the file system [fs0]:
    it exits with status 0 when [main()] returns and with status 1 when an
    exception escapes it. *)
Definition run_script (input_dir : pystr) (fs0 : fsys) : Z * St :=
  match main input_dir (mkSt fs0 []) with
  | (inl _, st) => (1, st)
  | (inr _, st) => (0, st)
  end.

End Program.

(** ** A concrete environment *)

Module Sample.

(** A small image codec: a three-value header followed by the pixel bytes. *)
Definition enc_raw (img : image) : bytes :=
  [img_rows img; img_cols img; img_chans img] ++ img_data img.

Definition dec_raw (b : bytes) : option image :=
  match b with
  | r :: c :: ch :: d => Some (mkImage r c ch d)
  | _ => None
  end.

(** Path resolution relative to the working directory: leading [./]
    components name the same file. *)
Fixpoint strip_dot (p : pystr) : pystr :=
  match p with
  | "."%char :: "/"%char :: rest => strip_dot rest
  | _ => p
  end.

Definition imgA := mkImage 1 2 1 [10; 20].
Definition imgB := mkImage 1 2 1 [30; 41].
Definition pano := mkImage 1 3 1 [10; 23; 41].

Definition dir := pys "photos".

Definition fs0 : fsys :=
  [(pys "photos/a.jpg", enc_raw imgA); (pys "photos/b.PNG", enc_raw imgB);
   (pys "photos/c.txt", [7])].

(** A toy engine: two or more images give [OK] and [pano]; fewer give
    [ERR_NEED_MORE_IMGS]. *)
Definition engine (imgs : list image) : option (Z * option image) :=
  if (2 <=? List.length imgs)%nat then Some (Stitcher_OK, Some pano)
  else Some (ERR_NEED_MORE_IMGS, None).

Definition listing (d : pystr) : option (list pystr) :=
  if list_eq_dec ascii_dec d dir
  then Some [pys "a.jpg"; pys "b.PNG"; pys "c.txt"] else None.

Definition env_ok : Env :=
  mkEnv listing strip_dot dec_raw (fun _ => enc_raw) (fun _ _ => Written) engine.

End Sample.

Import Sample.

Example scan_sample :
  fst (scan_images env_ok dir (mkSt fs0 [])) = inr [pys "photos/a.jpg"; pys "photos/b.PNG"].
Proof. reflexivity. Qed.

Example run_sample :
  let '(code, st) := run_script env_ok dir fs0 in
  code = 0 /\ file_image env_ok (st_fs st) output_name = Some pano.
Proof. vm_compute. split; reflexivity. Qed.

(** ** General lemmas on the embedding *)

Lemma mapM_imread (env : Env) (ps : list pystr) (st : St) :
  mapM (imread env) ps st =
  (inr (map (file_image env (st_fs st)) ps), mkSt (st_fs st) (st_trace st ++ map EvRead ps)).
Proof.
  revert st; induction ps as [|p ps IH]; intros [fs tr]; simpl.
  - rewrite app_nil_r. reflexivity.
  - unfold bind at 1; simpl. unfold bind at 1; simpl.
    rewrite IH; simpl. rewrite <- app_assoc. reflexivity.
Qed.

Lemma create_panorama_eq (env : Env) (ps : list pystr) (st : St) :
  create_panorama env ps st =
  let fs := st_fs st in
  let tr0 := (st_trace st ++ [EvLog INFO (MsgStitching (Z.of_nat (List.length ps)))])
             ++ map EvRead ps in
  let images := map (file_image env fs) ps in
  if existsb is_none images then
    (inr None, mkSt fs (tr0 ++ [EvLog ERROR MsgLoadFailed]))
  else
    match stitch_engine env (arrays images) with
    | None => (inl CvError, mkSt fs (tr0 ++ [EvStitch (arrays images)]))
    | Some (status, panorama) =>
      if negb (status =? Stitcher_OK) then
        (inr None, mkSt fs ((tr0 ++ [EvStitch (arrays images)])
                            ++ [EvLog ERROR (MsgStitchFailed status)]))
      else
        (inr panorama, mkSt fs ((tr0 ++ [EvStitch (arrays images)]) ++ [EvLog INFO MsgCreated]))
    end.
Proof.
  destruct st as [fs tr].
  unfold create_panorama, bind at 1, log, emit; simpl.
  unfold bind at 1. rewrite mapM_imread; simpl.
  destruct (existsb is_none _); [reflexivity|].
  unfold bind at 1, stitch, bind at 1, emit, ret; simpl.
  destruct (stitch_engine env _) as [[status panorama]|]; [|reflexivity].
  destruct (negb (status =? Stitcher_OK)); reflexivity.
Qed.

(** Observable projections of a trace. *)
Definition stitch_calls (tr : list event) : list (list image) :=
  flat_map (fun e => match e with EvStitch i => [i] | _ => [] end) tr.

Definition is_write (e : event) : bool :=
  match e with EvWrite _ => true | _ => false end.

Definition is_error_log (e : event) : bool :=
  match e with EvLog ERROR _ => true | _ => false end.

Lemma stitch_calls_app (t1 t2 : list event) :
  stitch_calls (t1 ++ t2) = stitch_calls t1 ++ stitch_calls t2.
Proof. apply flat_map_app. Qed.

Lemma stitch_calls_reads (ps : list pystr) : stitch_calls (map EvRead ps) = [].
Proof. induction ps; simpl; auto. Qed.

Lemma In_stitch_calls (imgs : list image) (tr : list event) :
  In (EvStitch imgs) tr <-> In imgs (stitch_calls tr).
Proof.
  unfold stitch_calls; rewrite in_flat_map; split.
  - intros H; exists (EvStitch imgs); simpl; auto.
  - intros [[] [Hin Hx]]; simpl in Hx; try contradiction.
    destruct Hx as [<- | []]; exact Hin.
Qed.

Lemma existsb_reads (f : event -> bool) (ps : list pystr) :
  (forall p, f (EvRead p) = false) -> existsb f (map EvRead ps) = false.
Proof. intros Hf; induction ps; simpl; [reflexivity|]. rewrite Hf, IHps; reflexivity. Qed.

Ltac trace_simpl :=
  repeat (rewrite ?stitch_calls_app, ?stitch_calls_reads, ?existsb_app in *; simpl in *;
          rewrite ?(existsb_reads is_write) , ?(existsb_reads is_error_log) in * by reflexivity).

(** All paths decode: [images] is [map Some imgs]. *)
Lemma decodable_images (env : Env) (fs : fsys) (ps : list pystr) (imgs : list image) :
  Forall2 (fun p i => file_image env fs p = Some i) ps imgs ->
  map (file_image env fs) ps = map Some imgs.
Proof. induction 1; simpl; congruence. Qed.

Lemma existsb_is_none_some (imgs : list image) : existsb is_none (map Some imgs) = false.
Proof. induction imgs; simpl; auto. Qed.

Lemma arrays_some (imgs : list image) : arrays (map Some imgs) = imgs.
Proof. induction imgs; simpl; congruence. Qed.


Lemma save_image_eq (env : Env) (img : image) (name : pystr) (st : St) :
  save_image env img name st =
  (inr tt, mkSt (stored (st_fs st) (resolve env name)
                        (write_outcome env name (encode env name img)) (encode env name img))
                ((st_trace st ++ [EvWrite name]) ++ [EvLog INFO (MsgSaved name)])).
Proof.
  destruct st as [fs tr].
  unfold save_image, imwrite, bind, emit, get_fs, put_fs, log, ret; simpl.
  reflexivity.
Qed.

Lemma scan_images_ok (env : Env) (d : pystr) (l : list pystr) (st : St) :
  listdir env d = Some l ->
  scan_images env d st =
  let files := map (path_join d) (filter is_image_file l) in
  (inr files,
   mkSt (st_fs st) (if (List.length files =? 0)%nat
                    then st_trace st ++ [EvLog WARNING MsgNoImageFiles] else st_trace st)).
Proof.
  intros Hl; destruct st as [fs tr].
  unfold scan_images, os_listdir, bind at 1; rewrite Hl; simpl.
  destruct (List.length _ =? 0)%nat; reflexivity.
Qed.

Lemma main_ok (env : Env) (d : pystr) (l : list pystr) (st : St) :
  listdir env d = Some l ->
  main env d st =
  let files := map (path_join d) (filter is_image_file l) in
  if (List.length files =? 0)%nat then
    (inr tt, mkSt (st_fs st) ((st_trace st ++ [EvLog WARNING MsgNoImageFiles])
                              ++ [EvLog ERROR MsgNoImagesExit]))
  else
    match create_panorama env files st with
    | (inr (Some p), st2) => save_image env p output_name st2
    | (inr None, st2) => (inr tt, mkSt (st_fs st2) (st_trace st2 ++ [EvLog ERROR MsgPanoramaFailed]))
    | (inl e, st2) => (inl e, st2)
    end.
Proof.
  intros Hl; destruct st as [fs tr].
  unfold main, bind at 1; rewrite (scan_images_ok env d l _ Hl); simpl.
  destruct (List.length _ =? 0)%nat; [reflexivity|].
  unfold bind.
  destruct (create_panorama env _ _) as [[e|[p|]] st2]; reflexivity.
Qed.

Lemma run_script_listdir_fails (env : Env) (d : pystr) (fs0 : fsys) :
  listdir env d = None -> run_script env d fs0 = (1, mkSt fs0 []).
Proof.
  intros H; unfold run_script, main, scan_images, os_listdir, bind; rewrite H; reflexivity.
Qed.


Lemma create_panorama_decoded (env : Env) (ps : list pystr) (imgs : list image) (st : St) :
  Forall2 (fun p i => file_image env (st_fs st) p = Some i) ps imgs ->
  create_panorama env ps st =
  let tr0 := ((st_trace st ++ [EvLog INFO (MsgStitching (Z.of_nat (List.length ps)))])
              ++ map EvRead ps) ++ [EvStitch imgs] in
  match stitch_engine env imgs with
  | None => (inl CvError, mkSt (st_fs st) tr0)
  | Some (status, panorama) =>
    if negb (status =? Stitcher_OK) then
      (inr None, mkSt (st_fs st) (tr0 ++ [EvLog ERROR (MsgStitchFailed status)]))
    else (inr panorama, mkSt (st_fs st) (tr0 ++ [EvLog INFO MsgCreated]))
  end.
Proof.
  intros H; rewrite create_panorama_eq; cbv zeta.
  rewrite (decodable_images env _ ps imgs H), existsb_is_none_some, arrays_some.
  destruct (stitch_engine env imgs) as [[status panorama]|]; reflexivity.
Qed.

Definition paths_ab : list pystr := [pys "photos/a.jpg"; pys "photos/b.PNG"].

(** The engine of [env_ok] replaced by one that always fails with [code]. *)
Definition env_failing (code : Z) : Env :=
  mkEnv listing strip_dot dec_raw (fun _ => enc_raw) (fun _ _ => Written)
        (fun _ => Some (code, None)).

(** C1 (counterexample).  With both images decodable, an engine failing with
    [ERR_NEED_MORE_IMGS] and one failing with [ERR_CAMERA_PARAMS_ADJUST_FAIL]
    make [create_panorama] return the same value, [None]: the returned value
    carries no engine status code. *)
Lemma C1_status_not_returned :
  fst (create_panorama (env_failing ERR_NEED_MORE_IMGS) paths_ab (mkSt fs0 [])) = inr None /\
  fst (create_panorama (env_failing ERR_CAMERA_PARAMS_ADJUST_FAIL) paths_ab (mkSt fs0 [])) = inr None.
Proof. split; reflexivity. Qed.

(** C1 (amended).  When every path decodes and the engine returns a status
    other than [Stitcher_OK], [create_panorama] returns [None], calls the
    engine once, and the status code reaches only the error log record
    "Failed to stitch images, error code: {status}". *)
Theorem C1_status_only_logged (env : Env) (ps : list pystr) (imgs : list image) (st : St)
    (status : Z) (panorama : option image) :
  Forall2 (fun p i => file_image env (st_fs st) p = Some i) ps imgs ->
  stitch_engine env imgs = Some (status, panorama) ->
  status <> Stitcher_OK ->
  create_panorama env ps st =
  (inr None, mkSt (st_fs st)
     ((((st_trace st ++ [EvLog INFO (MsgStitching (Z.of_nat (List.length ps)))])
        ++ map EvRead ps) ++ [EvStitch imgs]) ++ [EvLog ERROR (MsgStitchFailed status)])).
Proof.
  intros Hdec Heng Hne.
  rewrite (create_panorama_decoded env ps imgs st Hdec); cbv zeta; rewrite Heng.
  apply Z.eqb_neq in Hne; rewrite Hne; reflexivity.
Qed.

Lemma C1_status_only_logged_witness :
  Forall2 (fun p i => file_image (env_failing 2) fs0 p = Some i) paths_ab [imgA; imgB] /\
  stitch_engine (env_failing 2) [imgA; imgB] = Some (2, None) /\
  2 <> Stitcher_OK /\
  create_panorama (env_failing 2) paths_ab (mkSt fs0 []) =
  (inr None, mkSt fs0
     (((([] ++ [EvLog INFO (MsgStitching 2)]) ++ map EvRead paths_ab)
       ++ [EvStitch [imgA; imgB]]) ++ [EvLog ERROR (MsgStitchFailed 2)])).
Proof.
  assert (H : Forall2 (fun p i => file_image (env_failing 2) fs0 p = Some i)
                      paths_ab [imgA; imgB])
    by (repeat constructor).
  refine (conj H (conj eq_refl (conj _ _))).
  - unfold Stitcher_OK; lia.
  - apply (C1_status_only_logged (env_failing 2) paths_ab [imgA; imgB] (mkSt fs0 []) 2 None H);
      [reflexivity | unfold Stitcher_OK; lia].
Defined.





(** C7.  When every path decodes, [create_panorama] calls the engine exactly
    once, with the decoded images in the order of the input paths. *)
Theorem C7_single_ordered_stitch (env : Env) (ps : list pystr) (imgs : list image) (st : St) :
  Forall2 (fun p i => file_image env (st_fs st) p = Some i) ps imgs ->
  stitch_calls (st_trace (snd (create_panorama env ps st))) = stitch_calls (st_trace st) ++ [imgs].
Proof.
  intros H; rewrite (create_panorama_decoded env ps imgs st H); cbv zeta.
  destruct (stitch_engine env imgs) as [[status panorama]|];
    [destruct (negb _)|]; simpl; trace_simpl; rewrite ?app_nil_r; reflexivity.
Qed.

Lemma C7_single_ordered_stitch_witness :
  Forall2 (fun p i => file_image env_ok fs0 p = Some i) paths_ab [imgA; imgB] /\
  stitch_calls (st_trace (snd (create_panorama env_ok paths_ab (mkSt fs0 [])))) =
  stitch_calls [] ++ [[imgA; imgB]].
Proof.
  assert (H : Forall2 (fun p i => file_image env_ok fs0 p = Some i) paths_ab [imgA; imgB])
    by (repeat constructor).
  split; [exact H|].
  exact (C7_single_ordered_stitch env_ok paths_ab [imgA; imgB] (mkSt fs0 []) H).
Defined.



(** Case analysis on a run of the script over a listable directory. *)
Ltac run_cases Hl :=
  unfold run_script; rewrite (main_ok _ _ _ _ Hl); cbv zeta;
  destruct (_ =? 0)%nat eqn:Hlen;
  [ | rewrite create_panorama_eq; cbv zeta;
      destruct (existsb is_none _) eqn:Hnone;
      [ | destruct (stitch_engine _ (arrays _)) as [[status panorama]|] eqn:Heng;
          cbv beta iota zeta;
          [ destruct (negb (status =? Stitcher_OK)) eqn:Hst; cbv beta iota zeta;
            [ | destruct panorama as [p|]; [cbv beta iota zeta; rewrite save_image_eq|]]
          | ]]];
  simpl; trace_simpl.

(** C4.  In a run where the engine reports a status other than
    [Stitcher_OK] (or raises instead of reporting one), no write is attempted
    and the file system is left as it was. *)
Theorem C4_no_write_after_stitch_failure (env : Env) (d : pystr) (fs0 : fsys)
    (imgs : list image) :
  In (EvStitch imgs) (st_trace (snd (run_script env d fs0))) ->
  (forall r, stitch_engine env imgs = Some r -> fst r <> Stitcher_OK) ->
  existsb is_write (st_trace (snd (run_script env d fs0))) = false /\
  st_fs (snd (run_script env d fs0)) = fs0.
Proof.
  intros Hin Hne.
  destruct (listdir env d) as [l|] eqn:Hl.
  2: { rewrite (run_script_listdir_fails env d fs0 Hl) in Hin; simpl in Hin; contradiction. }
  rewrite In_stitch_calls in Hin; revert Hin; run_cases Hl; intros Hin;
    rewrite ?app_nil_r in Hin; auto.
  destruct Hin as [<- | []]. apply Hne in Heng; simpl in Heng.
  apply negb_false_iff, Z.eqb_eq in Hst; contradiction.
Qed.

Definition env_one_image : Env :=
  mkEnv (fun _ => Some [pys "a.jpg"]) strip_dot dec_raw (fun _ => enc_raw) (fun _ _ => Written)
        engine.

Lemma C4_no_write_after_stitch_failure_witness :
  In (EvStitch [imgA]) (st_trace (snd (run_script env_one_image dir fs0))) /\
  (forall r, stitch_engine env_one_image [imgA] = Some r -> fst r <> Stitcher_OK) /\
  existsb is_write (st_trace (snd (run_script env_one_image dir fs0))) = false /\
  st_fs (snd (run_script env_one_image dir fs0)) = fs0.
Proof.
  assert (Hin : In (EvStitch [imgA]) (st_trace (snd (run_script env_one_image dir fs0))))
    by (vm_compute; tauto).
  assert (Hne : forall r, stitch_engine env_one_image [imgA] = Some r -> fst r <> Stitcher_OK)
    by (intros r Hr; vm_compute in Hr; injection Hr as <-; discriminate).
  exact (conj Hin (conj Hne (C4_no_write_after_stitch_failure env_one_image dir fs0 [imgA] Hin Hne))).
Defined.

(** C5.  When the listing of the directory has no image file, the run logs
    the warning and the error "No images found to process. Exiting program."
    and does nothing else: no file is read, the engine is not called and
    nothing is written. *)
Theorem C5_empty_discovery_stops (env : Env) (d : pystr) (l : list pystr) (fs0 : fsys) :
  listdir env d = Some l ->
  filter is_image_file l = [] ->
  run_script env d fs0 =
  (0, mkSt fs0 [EvLog WARNING MsgNoImageFiles; EvLog ERROR MsgNoImagesExit]).
Proof.
  intros Hl Hf; unfold run_script; rewrite (main_ok env d l _ Hl); cbv zeta.
  rewrite Hf; reflexivity.
Qed.

Definition env_no_images : Env :=
  mkEnv (fun _ => Some [pys "c.txt"; pys "notes.md"]) strip_dot dec_raw (fun _ => enc_raw)
        (fun _ _ => Written) engine.

Lemma C5_empty_discovery_stops_witness :
  run_script env_no_images dir fs0 =
  (0, mkSt fs0 [EvLog WARNING MsgNoImageFiles; EvLog ERROR MsgNoImagesExit]).
Proof.
  apply (C5_empty_discovery_stops env_no_images dir [pys "c.txt"; pys "notes.md"] fs0);
    reflexivity.
Defined.



(** ** Discovery *)

(** The recognised extensions, as the specification lists them. *)
Definition recognized_extensions : list pystr := [pys ".jpg"; pys ".jpeg"; pys ".png"].

(** A name has a recognised extension, compared case-insensitively: it ends
    in a run of characters that are, one by one, equal to the extension's up
    to ASCII case. *)
Definition has_recognized_extension (f : pystr) : Prop :=
  exists ext stem tail,
    In ext recognized_extensions /\ f = stem ++ tail /\
    Forall2 (fun c e => lower_char c = lower_char e) tail ext.

Lemma skipn_app_length (p e : pystr) : skipn (List.length p) (p ++ e) = e.
Proof. induction p; simpl; auto. Qed.

Lemma endswith1_spec (s suffix : pystr) :
  endswith1 s suffix = true <-> exists p, s = p ++ suffix.
Proof.
  unfold endswith1; rewrite andb_true_iff, Nat.leb_le; split.
  - intros [Hle Heq].
    destruct (list_eq_dec ascii_dec _ _) as [E|]; [|discriminate].
    exists (firstn (List.length s - List.length suffix) s).
    rewrite <- E at 2; symmetry; apply firstn_skipn.
  - intros [p ->]; rewrite length_app; split; [lia|].
    replace (List.length p + List.length suffix - List.length suffix)%nat
      with (List.length p) by lia.
    rewrite skipn_app_length.
    destruct (list_eq_dec ascii_dec suffix suffix); [reflexivity | contradiction].
Qed.

Lemma Forall2_lower_map (t e : pystr) :
  Forall2 (fun c x => lower_char c = lower_char x) t e <-> map lower_char t = map lower_char e.
Proof.
  revert e; induction t as [|c t IH]; intros [|x e]; simpl; split; intros H;
    try discriminate; try (inversion H; fail); auto.
  - inversion H; subst; f_equal; [assumption | apply IH; assumption].
  - injection H as H1 H2; constructor; [assumption | apply IH; assumption].
Qed.

Lemma recognized_lowercase (ext : pystr) :
  In ext recognized_extensions -> map lower_char ext = ext.
Proof. intros [<- | [<- | [<- | []]]]; reflexivity. Qed.

Lemma is_image_file_spec (f : pystr) :
  is_image_file f = true <-> has_recognized_extension f.
Proof.
  unfold is_image_file, endswith, has_recognized_extension; rewrite existsb_exists.
  split.
  - intros [ext [Hin Hend]]; apply endswith1_spec in Hend as [p Hp].
    unfold lower in Hp; apply map_eq_app in Hp as [stem [tail [-> [_ Ht]]]].
    exists ext, stem, tail; repeat split; auto.
    apply Forall2_lower_map; rewrite Ht; symmetry; apply recognized_lowercase; exact Hin.
  - intros [ext [stem [tail [Hin [-> Hf]]]]]; exists ext; split; [exact Hin|].
    apply endswith1_spec; exists (lower stem); unfold lower; rewrite map_app; f_equal.
    apply Forall2_lower_map in Hf; rewrite Hf; apply recognized_lowercase; exact Hin.
Qed.

(** C6.  For every listing of the directory, [scan_images] returns normally
    (no entry raises), and its result is the listing's entries whose names
    end in [.jpg], [.jpeg] or [.png] in any case, each joined to the
    directory, in listing order; other entries are dropped. *)
Theorem C6_scan_filters_extensions (env : Env) (d : pystr) (l : list pystr) (st : St) :
  listdir env d = Some l ->
  fst (scan_images env d st) = inr (map (path_join d) (filter is_image_file l)) /\
  (forall f, is_image_file f = true <-> has_recognized_extension f).
Proof.
  intros Hl; split.
  - rewrite (scan_images_ok env d l st Hl); reflexivity.
  - apply is_image_file_spec.
Qed.

Lemma C6_scan_filters_extensions_witness :
  fst (scan_images env_ok dir (mkSt fs0 [])) =
  inr [pys "photos/a.jpg"; pys "photos/b.PNG"] /\
  (forall f, is_image_file f = true <-> has_recognized_extension f).
Proof.
  destruct (C6_scan_filters_extensions env_ok dir [pys "a.jpg"; pys "b.PNG"; pys "c.txt"]
              (mkSt fs0 []) eq_refl) as [H1 H2].
  split; [rewrite H1; reflexivity | exact H2].
Defined.

(** A run over a listable directory whose discovered files all decode. *)
Lemma run_script_decoded (env : Env) (d : pystr) (l : list pystr) (fs0 : fsys)
    (imgs : list image) :
  listdir env d = Some l ->
  filter is_image_file l <> [] ->
  Forall2 (fun f i => file_image env fs0 f = Some i) (map (path_join d) (filter is_image_file l)) imgs ->
  let files := map (path_join d) (filter is_image_file l) in
  let tr0 := [EvLog INFO (MsgStitching (Z.of_nat (List.length files)))]
             ++ map EvRead files ++ [EvStitch imgs] in
  run_script env d fs0 =
  match stitch_engine env imgs with
  | None => (1, mkSt fs0 tr0)
  | Some (status, panorama) =>
    if negb (status =? Stitcher_OK) then
      (0, mkSt fs0 (tr0 ++ [EvLog ERROR (MsgStitchFailed status); EvLog ERROR MsgPanoramaFailed]))
    else
      match panorama with
      | Some p =>
          (0, mkSt (stored fs0 (resolve env output_name)
                      (write_outcome env output_name (encode env output_name p))
                      (encode env output_name p))
                   (tr0 ++ [EvLog INFO MsgCreated; EvWrite output_name;
                            EvLog INFO (MsgSaved output_name)]))
      | None =>
          (0, mkSt fs0 (tr0 ++ [EvLog INFO MsgCreated; EvLog ERROR MsgPanoramaFailed]))
      end
  end.
Proof.
  intros Hl Hne Hdec; cbv zeta.
  unfold run_script; rewrite (main_ok env d l _ Hl); cbv zeta.
  destruct (filter is_image_file l) as [|f fs'] eqn:Hf; [contradiction|].
  simpl (List.length (map _ _) =? 0)%nat; cbv iota.
  rewrite (create_panorama_decoded env _ imgs (mkSt fs0 []) Hdec); cbv zeta.
  destruct (stitch_engine env imgs) as [[status [p|]]|];
    [destruct (negb (status =? Stitcher_OK)) .. | ]; cbv beta iota;
    rewrite ?save_image_eq; simpl; rewrite <- ?app_assoc; reflexivity.
Qed.

(** ** Writing the result *)





(** *** The JPEG encoder behind [cv2.imwrite]

    For a [.jpg] name [cv2.imwrite] hands the BGR raster to libjpeg with
    OpenCV's default settings.  The first stages of the encoder are the
    colour conversion of [jccolor.c] ([rgb_ycc_convert], 16-bit fixed point)
    and the 2x2 chroma downsampling of [jcsample.c] ([h2v2_downsample];
    OpenCV's default sampling factor is 4:2:0), with the right and bottom
    edges replicated up to even size.  Every later stage (DCT, quantisation,
    entropy coding, the file header) sees only the dimensions and these
    component planes, so the encoder is [back (jpeg_planes img)] for some
    function [back]. *)
Module Jpeg.

Fixpoint pixels (d : list Z) : list (Z * Z * Z) :=
  match d with
  | b :: g :: r :: rest => (b, g, r) :: pixels rest
  | _ => []
  end.

Definition ONE_HALF : Z := Z.shiftl 1 15.
Definition CBCR_OFFSET : Z := Z.shiftl 128 16.

Definition y_of (px : Z * Z * Z) : Z :=
  let '(b, g, r) := px in Z.shiftr (19595 * r + 38470 * g + 7471 * b + ONE_HALF) 16.
Definition cb_of (px : Z * Z * Z) : Z :=
  let '(b, g, r) := px in
  Z.shiftr (- 11059 * r - 21709 * g + 32768 * b + CBCR_OFFSET + ONE_HALF - 1) 16.
Definition cr_of (px : Z * Z * Z) : Z :=
  let '(b, g, r) := px in
  Z.shiftr (32768 * r - 27439 * g - 5329 * b + CBCR_OFFSET + ONE_HALF - 1) 16.

Fixpoint split_rows (n c : nat) (l : list Z) : list (list Z) :=
  match n with
  | O => []
  | S n' => firstn c l :: split_rows n' c (skipn c l)
  end.

(** One component of the raster, row by row. *)
Definition component (f : Z * Z * Z -> Z) (img : image) : list (list Z) :=
  split_rows (Z.to_nat (img_rows img)) (Z.to_nat (img_cols img))
             (map f (pixels (img_data img))).

Definition pad_even {A} (dflt : A) (l : list A) : list A :=
  if Nat.even (List.length l) then l else l ++ [last l dflt].

(** [h2v2_downsample] on one pair of rows: the bias alternates 1, 2. *)
Fixpoint down_pair (bias : Z) (r0 r1 : list Z) : list Z :=
  match r0, r1 with
  | a :: b :: t0, c :: d :: t1 => Z.shiftr (a + b + c + d + bias) 2 :: down_pair (3 - bias) t0 t1
  | _, _ => []
  end.

Fixpoint down_rows (rs : list (list Z)) : list Z :=
  match rs with
  | r0 :: r1 :: rest => down_pair 1 r0 r1 ++ down_rows rest
  | _ => []
  end.

Definition subsample (p : list (list Z)) : list Z :=
  down_rows (pad_even [] (map (pad_even 0) p)).

(** What the encoder passes on to its later stages. *)
Definition jpeg_planes (img : image) : bytes :=
  [img_rows img; img_cols img] ++ List.concat (component y_of img)
  ++ subsample (component cb_of img) ++ subsample (component cr_of img).

(** [cv2.imwrite] picks the codec by the file name's extension. *)
Definition jpeg_name (name : pystr) : bool := endswith (lower name) [pys ".jpg"; pys ".jpeg"].

(** Two 2x2 BGR rasters in checkerboard order of the colours (0,0,0) and
    (1,0,0). *)
Definition pano1 := mkImage 2 2 3 [0; 0; 0; 1; 0; 0; 1; 0; 0; 0; 0; 0].
Definition pano2 := mkImage 2 2 3 [1; 0; 0; 0; 0; 0; 0; 0; 0; 1; 0; 0].

(** The sample directory, with an engine that returns [q] and a JPEG writer
    with back end [back]; [dec] decodes the output, [dec_raw] the inputs. *)
Definition env_jpeg (back : bytes -> bytes) (dec : bytes -> option image) (q : image) : Env :=
  mkEnv listing strip_dot
        (fun b => match dec b with Some i => Some i | None => dec_raw b end)
        (fun name img => if jpeg_name name then back (jpeg_planes img) else enc_raw img)
        (fun _ _ => Written) (fun _ => Some (Stitcher_OK, Some q)).

End Jpeg.

Lemma image_eq_dec (a b : image) : {a = b} + {a <> b}.
Proof. decide equality; first [apply Z.eq_dec | apply list_eq_dec, Z.eq_dec]. Defined.

(** The encoder cannot tell [pano1] from [pano2]. *)
Lemma jpeg_planes_collide : Jpeg.jpeg_planes Jpeg.pano1 = Jpeg.jpeg_planes Jpeg.pano2.
Proof. vm_compute. reflexivity. Qed.

Lemma jpeg_run_output (back : bytes -> bytes) (dec : bytes -> option image) (q : image) :
  fst (run_script (Jpeg.env_jpeg back dec q) dir fs0) = 0 /\
  file_content (Jpeg.env_jpeg back dec q) (st_fs (snd (run_script (Jpeg.env_jpeg back dec q) dir fs0)))
    output_name = Some (back (Jpeg.jpeg_planes q)).
Proof.
  set (env := Jpeg.env_jpeg back dec q).
  set (ia := match dec (enc_raw imgA) with Some i => i | None => imgA end).
  set (ib := match dec (enc_raw imgB) with Some i => i | None => imgB end).
  assert (Hdec : Forall2 (fun f i => file_image env fs0 f = Some i)
                   (map (path_join dir) (filter is_image_file
                      [pys "a.jpg"; pys "b.PNG"; pys "c.txt"])) [ia; ib]).
  { change (filter is_image_file [pys "a.jpg"; pys "b.PNG"; pys "c.txt"])
      with [pys "a.jpg"; pys "b.PNG"].
    unfold ia, ib. constructor; [|constructor; [|constructor]].
    all: clear ia ib; unfold file_image, file_content; simpl; destruct (dec _); reflexivity. }
  rewrite (run_script_decoded env dir _ fs0 _ eq_refl ltac:(discriminate) Hdec); simpl.
  split; reflexivity.
Qed.

Lemma jpeg_run_read_back (back : bytes -> bytes) (dec : bytes -> option image) (q : image) :
  file_image (Jpeg.env_jpeg back dec q) (st_fs (snd (run_script (Jpeg.env_jpeg back dec q) dir fs0)))
    output_name =
  match dec (back (Jpeg.jpeg_planes q)) with
  | Some i => Some i
  | None => dec_raw (back (Jpeg.jpeg_planes q))
  end.
Proof. unfold file_image; rewrite (proj2 (jpeg_run_output back dec q)); reflexivity. Qed.

(** C9 (counterexample).  With OpenCV's default JPEG settings the rasters
    [pano1] and [pano2] differ but are written as the same
    [panorama_output.jpg], whatever the later stages of the encoder: two runs
    whose engine reports OK with [pano1], resp. [pano2], leave the same file,
    and for every encoder back end and every decoder the read-back differs
    from the panorama in one of them. *)
Lemma C9_jpeg_read_back_differs :
  fst (create_panorama (Jpeg.env_jpeg id dec_raw Jpeg.pano1) paths_ab (mkSt fs0 [])) =
    inr (Some Jpeg.pano1) /\
  fst (create_panorama (Jpeg.env_jpeg id dec_raw Jpeg.pano2) paths_ab (mkSt fs0 [])) =
    inr (Some Jpeg.pano2) /\
  Jpeg.pano1 <> Jpeg.pano2 /\
  (forall back dec,
     fst (run_script (Jpeg.env_jpeg back dec Jpeg.pano1) dir fs0) = 0 /\
     fst (run_script (Jpeg.env_jpeg back dec Jpeg.pano2) dir fs0) = 0 /\
     file_content (Jpeg.env_jpeg back dec Jpeg.pano1)
       (st_fs (snd (run_script (Jpeg.env_jpeg back dec Jpeg.pano1) dir fs0))) output_name =
     file_content (Jpeg.env_jpeg back dec Jpeg.pano2)
       (st_fs (snd (run_script (Jpeg.env_jpeg back dec Jpeg.pano2) dir fs0))) output_name /\
     (file_image (Jpeg.env_jpeg back dec Jpeg.pano1)
        (st_fs (snd (run_script (Jpeg.env_jpeg back dec Jpeg.pano1) dir fs0))) output_name
        <> Some Jpeg.pano1 \/
      file_image (Jpeg.env_jpeg back dec Jpeg.pano2)
        (st_fs (snd (run_script (Jpeg.env_jpeg back dec Jpeg.pano2) dir fs0))) output_name
        <> Some Jpeg.pano2)).
Proof.
  split; [reflexivity|]; split; [reflexivity|]; split; [discriminate|].
  intros back dec.
  split; [apply jpeg_run_output|]; split; [apply jpeg_run_output|].
  rewrite !(proj2 (jpeg_run_output _ _ _)), !jpeg_run_read_back, jpeg_planes_collide.
  split; [reflexivity|].
  destruct (match dec (back (Jpeg.jpeg_planes Jpeg.pano2)) with
            | Some i => Some i
            | None => dec_raw (back (Jpeg.jpeg_planes Jpeg.pano2))
            end) as [i|].
  - destruct (image_eq_dec i Jpeg.pano1) as [->|Hne]; [right; discriminate | left; congruence].
  - left; discriminate.
Qed.

(** C9 (amended).  When the directory lists image files that all decode and
    the engine reports OK with raster [p], [create_panorama] returns [p], the
    process exits with status 0 after one write of [panorama_output.jpg], and
    if that write succeeds the file then holds the encoding of [p] chosen by
    its [.jpg] name: reading it back gives the decoding of that encoding,
    which is [p] exactly when the codec reproduces [p]. *)
Theorem C9_success_write_read_back (env : Env) (d : pystr) (l : list pystr) (fs0 : fsys)
    (imgs : list image) (p : image) :
  listdir env d = Some l ->
  filter is_image_file l <> [] ->
  Forall2 (fun f i => file_image env fs0 f = Some i) (map (path_join d) (filter is_image_file l)) imgs ->
  stitch_engine env imgs = Some (Stitcher_OK, Some p) ->
  fst (create_panorama env (map (path_join d) (filter is_image_file l)) (mkSt fs0 [])) = inr (Some p) /\
  let '(code, st) := run_script env d fs0 in
  code = 0 /\
  List.length (filter is_write (st_trace st)) = 1%nat /\
  (write_outcome env output_name (encode env output_name p) = Written ->
   file_content env (st_fs st) output_name = Some (encode env output_name p) /\
   file_image env (st_fs st) output_name = decode env (encode env output_name p) /\
   (file_image env (st_fs st) output_name = Some p <->
    decode env (encode env output_name p) = Some p)).
Proof.
  intros Hl Hne Hdec Heng.
  assert (Hcp := create_panorama_decoded env _ imgs (mkSt fs0 []) Hdec).
  cbv zeta in Hcp; rewrite Heng in Hcp; simpl in Hcp.
  split; [rewrite Hcp; reflexivity|].
  unfold run_script; rewrite (main_ok env d l _ Hl); cbv zeta.
  destruct (filter is_image_file l) as [|f fs'] eqn:Hf; [contradiction|].
  simpl (List.length (map _ _) =? 0)%nat; cbv iota.
  rewrite Hcp; cbv beta iota; rewrite save_image_eq; simpl.
  assert (Hr : forall ps : list pystr, filter is_write (map EvRead ps) = []).
  { induction ps; simpl; auto. }
  rewrite !filter_app, Hr; simpl.
  split; [reflexivity|]; split; [reflexivity|].
  intros Hw; rewrite Hw.
  unfold file_image, file_content, stored, fs_write; simpl.
  destruct (list_eq_dec ascii_dec (resolve env output_name) (resolve env output_name));
    [|contradiction].
  repeat split; tauto.
Qed.

Lemma C9_success_write_read_back_witness :
  listdir env_ok dir = Some [pys "a.jpg"; pys "b.PNG"; pys "c.txt"] /\
  fst (create_panorama env_ok paths_ab (mkSt fs0 [])) = inr (Some pano) /\
  file_image env_ok (st_fs (snd (run_script env_ok dir fs0))) output_name =
  decode env_ok (encode env_ok output_name pano).
Proof.
  assert (Hdec : Forall2 (fun f i => file_image env_ok fs0 f = Some i)
                   (map (path_join dir) (filter is_image_file
                      [pys "a.jpg"; pys "b.PNG"; pys "c.txt"])) [imgA; imgB])
    by (repeat constructor).
  destruct (C9_success_write_read_back env_ok dir [pys "a.jpg"; pys "b.PNG"; pys "c.txt"] fs0
              [imgA; imgB] pano eq_refl ltac:(discriminate) Hdec eq_refl) as [H1 H2].
  destruct (run_script env_ok dir fs0) as [code st] eqn:Hrun.
  destruct H2 as [_ [_ H3]].
  destruct (H3 eq_refl) as [_ [H4 _]].
  split; [reflexivity|]; split; [exact H1 | exact H4].
Defined.

(** ** Further properties of the script *)

(** The paths read by [cv2.imread] in a trace, in order. *)
Definition read_paths (tr : list event) : list pystr :=
  flat_map (fun e => match e with EvRead p => [p] | _ => [] end) tr.

Definition write_count (tr : list event) : nat := List.length (filter is_write tr).

Lemma read_paths_app (t1 t2 : list event) :
  read_paths (t1 ++ t2) = read_paths t1 ++ read_paths t2.
Proof. apply flat_map_app. Qed.

Lemma read_paths_reads (ps : list pystr) : read_paths (map EvRead ps) = ps.
Proof. induction ps; simpl; congruence. Qed.

Lemma write_count_app (t1 t2 : list event) :
  write_count (t1 ++ t2) = (write_count t1 + write_count t2)%nat.
Proof. unfold write_count; rewrite filter_app, length_app; reflexivity. Qed.

Lemma write_count_reads (ps : list pystr) : write_count (map EvRead ps) = 0%nat.
Proof. induction ps; simpl; auto. Qed.

Lemma filter_is_write_reads (ps : list pystr) : filter is_write (map EvRead ps) = [].
Proof. induction ps; simpl; auto. Qed.

Ltac count_simpl :=
  repeat (rewrite ?read_paths_app, ?read_paths_reads, ?write_count_app, ?write_count_reads,
            ?stitch_calls_app, ?stitch_calls_reads in *; simpl in *).

(** X1.  [scan_images] never reads, writes or calls the engine: its only
    event is the warning "No image files found in the directory.", logged
    exactly when the returned list is empty. *)
Theorem X1_scan_warns_iff_empty (env : Env) (d : pystr) (l : list pystr) (st : St) :
  listdir env d = Some l ->
  let '(r, st') := scan_images env d st in
  st_fs st' = st_fs st /\
  (r = inr [] -> st_trace st' = st_trace st ++ [EvLog WARNING MsgNoImageFiles]) /\
  (forall f fs', r = inr (f :: fs') -> st_trace st' = st_trace st).
Proof.
  intros Hl; rewrite (scan_images_ok env d l st Hl); cbv zeta.
  destruct (map (path_join d) (filter is_image_file l)) as [|f fs'] eqn:Hm; simpl.
  - repeat split; auto; intros ? ? H; discriminate.
  - repeat split; auto; intros H; discriminate.
Qed.

Lemma X1_scan_warns_iff_empty_witness :
  let '(r, st') := scan_images env_no_images dir (mkSt fs0 []) in
  st_fs st' = fs0 /\
  (r = inr [] -> st_trace st' = [] ++ [EvLog WARNING MsgNoImageFiles]) /\
  (forall f fs', r = inr (f :: fs') -> st_trace st' = []).
Proof. exact (X1_scan_warns_iff_empty env_no_images dir _ (mkSt fs0 []) eq_refl). Defined.

(** X2.  When [os.listdir] raises, [scan_images] propagates the [OSError]
    for the directory without logging anything, and [main] stops there. *)
Theorem X2_unlistable_directory (env : Env) (d : pystr) (st : St) :
  listdir env d = None ->
  scan_images env d st = (inl (OSError d), st) /\ main env d st = (inl (OSError d), st).
Proof.
  intros H; unfold main, scan_images, os_listdir, bind; rewrite H; split; reflexivity.
Qed.

Lemma X2_unlistable_directory_witness :
  scan_images env_ok (pys "missing") (mkSt fs0 []) = (inl (OSError (pys "missing")), mkSt fs0 []) /\
  main env_ok (pys "missing") (mkSt fs0 []) = (inl (OSError (pys "missing")), mkSt fs0 []).
Proof. apply X2_unlistable_directory; reflexivity. Defined.

Lemma path_join_suffix (a b : pystr) : exists pre, path_join a b = pre ++ b.
Proof.
  unfold path_join.
  destruct b as [|c b'] eqn:Hb.
  - destruct (rev a) as [|c' r]; [exists []; reflexivity|].
    destruct (ascii_dec c' "/"%char) as [->|];
      [exists a; reflexivity |].
    destruct c' as [[] [] [] [] [] [] [] []];
      try (exists (a ++ ["/"%char]); rewrite <- app_assoc; reflexivity);
      exists a; reflexivity.
  - rewrite <- Hb.
    assert (Hgen : forall r : list ascii,
               exists pre, match r with
                           | [] => b
                           | "/"%char :: _ => a ++ b
                           | _ => a ++ ["/"%char] ++ b
                           end = pre ++ b).
    { intros [|c' r]; [exists []; reflexivity|].
      destruct c' as [[] [] [] [] [] [] [] []];
        first [exists a; reflexivity | exists (a ++ ["/"%char]); rewrite <- app_assoc; reflexivity]. }
    subst b.
    destruct c as [[] [] [] [] [] [] [] []]; first [exists []; reflexivity | apply Hgen].
Qed.

(** X3.  Every path [scan_images] returns is the directory joined with one
    of the listed entries, and itself passes the extension test: joining
    never hides the entry's extension. *)
Theorem X3_scanned_paths_are_images (env : Env) (d : pystr) (l : list pystr) (st : St)
    (files : list pystr) :
  listdir env d = Some l ->
  fst (scan_images env d st) = inr files ->
  forall x, In x files ->
  is_image_file x = true /\ exists f, In f l /\ is_image_file f = true /\ x = path_join d f.
Proof.
  intros Hl Hr x Hx.
  rewrite (scan_images_ok env d l st Hl) in Hr; simpl in Hr; injection Hr as <-.
  apply in_map_iff in Hx as [f [<- Hf]]; apply filter_In in Hf as [Hin Hf].
  split; [|exists f; auto].
  apply is_image_file_spec in Hf as [ext [stem [tail [He [-> Ht]]]]].
  apply is_image_file_spec.
  destruct (path_join_suffix d (stem ++ tail)) as [pre ->].
  exists ext, (pre ++ stem), tail; rewrite <- app_assoc; auto.
Qed.

Lemma X3_scanned_paths_are_images_witness :
  is_image_file (pys "photos/b.PNG") = true /\
  exists f, In f [pys "a.jpg"; pys "b.PNG"; pys "c.txt"] /\ is_image_file f = true /\
            pys "photos/b.PNG" = path_join dir f.
Proof.
  apply (X3_scanned_paths_are_images env_ok dir [pys "a.jpg"; pys "b.PNG"; pys "c.txt"]
           (mkSt fs0 []) [pys "photos/a.jpg"; pys "photos/b.PNG"] eq_refl eq_refl).
  simpl; auto.
Defined.


(** X5.  [create_panorama] does not guard against an empty list: on [[]] it
    reads nothing and calls the engine once with the empty image list. *)
Theorem X5_empty_list_reaches_engine (env : Env) (st : St) :
  read_paths (st_trace (snd (create_panorama env [] st))) = read_paths (st_trace st) /\
  stitch_calls (st_trace (snd (create_panorama env [] st))) = stitch_calls (st_trace st) ++ [[]].
Proof.
  rewrite create_panorama_eq; cbv zeta; simpl.
  destruct (stitch_engine env []) as [[status panorama]|]; [destruct (negb _)|];
    simpl; count_simpl; rewrite ?app_nil_r; split; reflexivity.
Qed.

(** X6.  When the engine reports [Stitcher_OK] but returns no array, the run
    logs "Panorama successfully created." and then "Failed to create a
    panorama.", writes nothing and exits with status 0. *)
Theorem X6_ok_without_panorama (env : Env) (d : pystr) (l : list pystr) (fs0 : fsys)
    (imgs : list image) :
  listdir env d = Some l ->
  filter is_image_file l <> [] ->
  Forall2 (fun f i => file_image env fs0 f = Some i) (map (path_join d) (filter is_image_file l)) imgs ->
  stitch_engine env imgs = Some (Stitcher_OK, None) ->
  let files := map (path_join d) (filter is_image_file l) in
  run_script env d fs0 =
  (0, mkSt fs0 ([EvLog INFO (MsgStitching (Z.of_nat (List.length files)))]
                ++ map EvRead files
                ++ [EvStitch imgs; EvLog INFO MsgCreated; EvLog ERROR MsgPanoramaFailed])).
Proof.
  intros Hl Hne Hdec Heng; cbv zeta.
  rewrite (run_script_decoded env d l fs0 imgs Hl Hne Hdec); cbv zeta; rewrite Heng.
  simpl; rewrite <- !app_assoc; reflexivity.
Qed.

Definition env_ok_no_array : Env :=
  mkEnv listing strip_dot dec_raw (fun _ => enc_raw) (fun _ _ => Written)
        (fun _ => Some (Stitcher_OK, None)).

Lemma X6_ok_without_panorama_witness :
  run_script env_ok_no_array dir fs0 =
  (0, mkSt fs0 ([EvLog INFO (MsgStitching 2)] ++ map EvRead paths_ab
                ++ [EvStitch [imgA; imgB]; EvLog INFO MsgCreated; EvLog ERROR MsgPanoramaFailed])).
Proof.
  apply (X6_ok_without_panorama env_ok_no_array dir [pys "a.jpg"; pys "b.PNG"; pys "c.txt"] fs0
           [imgA; imgB] eq_refl ltac:(discriminate)); [repeat constructor | reflexivity].
Defined.

(** X7.  Every run of the script calls the engine at most once and attempts
    at most one write. *)
Theorem X7_at_most_one_stitch_and_write (env : Env) (d : pystr) (fs0 : fsys) :
  (List.length (stitch_calls (st_trace (snd (run_script env d fs0)))) <= 1)%nat /\
  (write_count (st_trace (snd (run_script env d fs0))) <= 1)%nat.
Proof.
  destruct (listdir env d) as [l|] eqn:Hl.
  2: { rewrite (run_script_listdir_fails env d fs0 Hl); simpl; unfold write_count; simpl; lia. }
  run_cases Hl; count_simpl; unfold write_count;
    simpl; rewrite ?filter_app, ?filter_is_write_reads, ?length_app; simpl; lia.
Qed.

(** A run leaves the file system as it was or adds one binding for the
    file the output name resolves to. *)
Lemma run_script_fs (env : Env) (d : pystr) (fs0 : fsys) :
  st_fs (snd (run_script env d fs0)) = fs0 \/
  exists b, st_fs (snd (run_script env d fs0)) = fs_write fs0 (resolve env output_name) b.
Proof.
  destruct (listdir env d) as [l|] eqn:Hl.
  2: { rewrite (run_script_listdir_fails env d fs0 Hl); left; reflexivity. }
  run_cases Hl; auto.
  destruct (write_outcome env output_name _) as [| | b];
    [right; eexists | left | right; exists b]; reflexivity.
Qed.

(** X8.  A run never changes the content of a path that resolves to a file
    other than the one [panorama_output.jpg] resolves to (in the working
    directory; [./panorama_output.jpg] names that same file): in particular
    the input images are left as they were. *)
Theorem X8_only_output_file_changes (env : Env) (d : pystr) (fs0 : fsys) (n : pystr) :
  resolve env n <> resolve env output_name ->
  file_content env (st_fs (snd (run_script env d fs0))) n = file_content env fs0 n.
Proof.
  intros Hn; unfold file_content.
  destruct (run_script_fs env d fs0) as [-> | [b ->]]; [reflexivity|].
  unfold fs_write; cbn [fs_lookup].
  destruct (list_eq_dec ascii_dec (resolve env output_name) (resolve env n));
    [congruence | reflexivity].
Qed.

Lemma X8_only_output_file_changes_witness :
  resolve env_ok (pys "photos/a.jpg") <> resolve env_ok output_name /\
  file_content env_ok (st_fs (snd (run_script env_ok dir fs0))) (pys "photos/a.jpg") =
  file_content env_ok fs0 (pys "photos/a.jpg").
Proof.
  assert (H : resolve env_ok (pys "photos/a.jpg") <> resolve env_ok output_name)
    by (vm_compute; discriminate).
  exact (conj H (X8_only_output_file_changes env_ok dir fs0 _ H)).
Defined.





(** X11.  In a run over a listable directory whose discovered files all
    decode, the engine is called exactly once, with the images of the
    discovered files in listing order. *)
Theorem X11_run_stitches_discovered_images (env : Env) (d : pystr) (l : list pystr)
    (fs0 : fsys) (imgs : list image) :
  listdir env d = Some l ->
  filter is_image_file l <> [] ->
  Forall2 (fun f i => file_image env fs0 f = Some i) (map (path_join d) (filter is_image_file l)) imgs ->
  stitch_calls (st_trace (snd (run_script env d fs0))) = [imgs].
Proof.
  intros Hl Hne Hdec.
  rewrite (run_script_decoded env d l fs0 imgs Hl Hne Hdec); cbv zeta.
  destruct (stitch_engine env imgs) as [[status [p|]]|]; [destruct (negb _) .. |]; simpl;
    count_simpl; reflexivity.
Qed.

Lemma X11_run_stitches_discovered_images_witness :
  stitch_calls (st_trace (snd (run_script env_ok dir fs0))) = [[imgA; imgB]].
Proof.
  apply (X11_run_stitches_discovered_images env_ok dir [pys "a.jpg"; pys "b.PNG"; pys "c.txt"] fs0
           [imgA; imgB] eq_refl ltac:(discriminate)); repeat constructor.
Defined.
